(** * Accuknox-Assignment: the Rectangle value class and the Django
      signal / transaction demo, embedded and checked against the
      specification's claims.

    Source files:
    - [Custom-Classes-Code/Rectangle.py]  (class [Rectangle])
    - [myapp/signals.py]                  (receiver [user_post_save])
    - [myapp/views.py]                    (view [create_user])            *)

From Stdlib Require Import ZArith SpecFloat.
From stdpp Require Import base strings gmap list.

Local Open Scope Z_scope.

(** ** Python values and exceptions *)

(** The run-time classes the program can tell apart.  [bool] is a subclass
    of [int]; every class is a subclass of [object]. *)
Inductive pytype := Tobject | Tint | Tbool | Tfloat | Tstr | TNoneType.

(** The values a caller can pass to [Rectangle(l, b)]. *)
Inductive pyval :=
| PyInt (z : Z)
| PyBool (t : bool)
| PyFloat (f : spec_float)
| PyStr (s : string)
| PyNone.

Definition type_of (v : pyval) : pytype :=
  match v with
  | PyInt _ => Tint
  | PyBool _ => Tbool
  | PyFloat _ => Tfloat
  | PyStr _ => Tstr
  | PyNone => TNoneType
  end.

(** [issubclass c d], by the method resolution order of the builtin
    classes: [bool -> int -> object], the others directly under [object]. *)
Definition issubclass (c d : pytype) : bool :=
  match d, c with
  | Tobject, _ => true
  | Tint, (Tint | Tbool) => true
  | Tbool, Tbool => true
  | Tfloat, Tfloat => true
  | Tstr, Tstr => true
  | TNoneType, TNoneType => true
  | _, _ => false
  end.

Definition isinstance (v : pyval) (c : pytype) : bool :=
  issubclass (type_of v) c.

(** The exception classes that occur; all of them derive from
    [Exception], and [str(e)] is the message. *)
Inductive exn :=
| Exception (msg : string)
| ValueError (msg : string)
| IntegrityError (msg : string).

Definition str (e : exn) : string :=
  match e with
  | Exception m | ValueError m | IntegrityError m => m
  end.

(** The outcome of a Python call: a value, or a raised exception. *)
Inductive Result (A : Type) :=
| Ok (a : A)
| Raise (e : exn).
Arguments Ok {A} a.
Arguments Raise {A} e.

(** ** Rectangle.py *)

Module Rectangle.

(** The instance attributes set by [__init__]. *)
Record t := mk { l : pyval; b : pyval }.

(** [Rectangle.__init__]: lines 2-8. *)
Definition __init__ (l b : pyval) : Result t :=
  if negb (isinstance l Tint) || negb (isinstance b Tint)
  then Raise (ValueError "Length and Breadth must be numbers")
  else Ok {| l := l; b := b |}.

(** A generator object made by [__iter__] is suspended at one of three
    points: before the first [yield], between the two, or exhausted. *)
Inductive pc := AtStart | AfterLength | Done.

(** One generator object: the instance it was made from (its [self])
    and where it is suspended. *)
Record generator := mkgen { self : t; at_ : pc }.

(** The heap of live generator objects, by address. *)
Record heap := mkheap { gens : gmap nat generator; fresh : nat }.

Definition empty_heap : heap := {| gens := ∅; fresh := 0%nat |}.

(** [Rectangle.__iter__]: lines 10-13.  Calling it runs none of the
    body; it allocates a new generator suspended at the start. *)
Definition __iter__ (r : t) (h : heap) : nat * heap :=
  (fresh h,
   {| gens := <[fresh h := {| self := r; at_ := AtStart |}]> (gens h);
      fresh := S (fresh h) |}).

(** The body of [__iter__] run from one suspension point to the next:
    the mapping yielded, if any, and the point reached. *)
Definition resume (g : generator) : option (gmap string pyval) * pc :=
  match at_ g with
  | AtStart => (Some {[ "length" := l (self g) ]}, AfterLength)
  | AfterLength => (Some {[ "width" := b (self g) ]}, Done)
  | Done => (None, Done)
  end.

(** [next(g)] on the generator at address [a]; [None] is StopIteration
    (also for an address that holds no generator). *)
Definition next (a : nat) (h : heap) : option (gmap string pyval) * heap :=
  match gens h !! a with
  | None => (None, h)
  | Some g =>
      let '(y, p) := resume g in
      (y, {| gens := <[a := {| self := self g; at_ := p |}]> (gens h);
             fresh := fresh h |})
  end.

(** Drain the generator at [a], as [list(g)] or a [for] loop does: call
    [next] until StopIteration.  The body has two yields, so three calls
    reach StopIteration; [fuel] bounds the number of calls. *)
Fixpoint drain (fuel : nat) (a : nat) (h : heap)
  : list (gmap string pyval) * heap :=
  match fuel with
  | O => ([], h)
  | S fuel' =>
      match next a h with
      | (None, h') => ([], h')
      | (Some d, h') =>
          let '(ds, h'') := drain fuel' a h' in (d :: ds, h'')
      end
  end.

(** [list(r)]: a fresh iteration of [r], run to exhaustion. *)
Definition to_list (r : t) (h : heap) : list (gmap string pyval) * heap :=
  let '(a, h1) := __iter__ r h in drain 3 a h1.

End Rectangle.

(** ** The framework the two Django modules run against

    [views.py] and [signals.py] call into Django and the Python runtime:
    [print], [time.sleep], [threading.current_thread().name],
    [request.GET.get], [transaction.atomic], [User.objects.create] and the
    [post_save] signal.  None of these is code of this repository; each is
    modelled below by what it does to the state a request runs in: the
    transactional scope commits on normal exit and discards its writes when
    an exception leaves it, and the signal is dispatched synchronously, in
    the calling thread, at the insert (sections 6 and 9 of the
    specification state the same contract). *)

(** A row of [django.contrib.auth.models.User], cut down to the two columns
    the program touches.  The primary key is assigned on insert. *)
Record User := mkUser { pk : Z; username : string }.

(** The senders a [post_save] receiver can be connected for. *)
Inductive ModelClass := auth_User | auth_Group.

#[global] Instance ModelClass_eq_dec : EqDecision ModelClass.
Proof. solve_decision. Defined.

(** The statements the framework sends to the database. *)
Inductive sql := BEGIN | INSERT (row : User) | COMMIT | ROLLBACK.

(** What a request does that can be observed from outside, in order:
    lines written by [print], blocking delays, database statements. *)
Inductive event :=
| Print (line : string)
| Sleep (secs : Z)
| Sql (q : sql).

(** The table [auth_user] and the counter its primary keys come from. *)
Record Database := mkDatabase { auth_user : list User; auth_user_seq : Z }.

(** The state a request runs in: the name of the thread that serves it,
    the database, and the events so far. *)
Record World := mkWorld {
  thread_name : string;
  db : Database;
  out : list event
}.

(** A computation that reads and writes the [World] and either returns a
    value or raises. *)
Definition M (A : Type) : Type := World -> Result A * World.

Definition ret {A} (a : A) : M A := fun w => (Ok a, w).

Definition raise {A} (e : exn) : M A := fun w => (Raise e, w).

Definition bind {A B} (m : M A) (k : A -> M B) : M B :=
  fun w =>
    match m w with
    | (Ok a, w') => k a w'
    | (Raise e, w') => (Raise e, w')
    end.

Declare Scope py_scope.
Delimit Scope py_scope with py.
Notation "x <- m ;; k" := (bind m (fun x => k))
  (at level 100, m at next level, right associativity) : py_scope.
Notation "m ;; k" := (bind m (fun _ => k))
  (at level 100, right associativity) : py_scope.
Local Open Scope py_scope.

(** [try: body / except Exception as e: handler e].  Every class of [exn]
    derives from [Exception], so the clause catches whatever [body]
    raises. *)
Definition try_except {A} (body : M A) (handler : exn -> M A) : M A :=
  fun w =>
    match body w with
    | (Ok a, w') => (Ok a, w')
    | (Raise e, w') => handler e w'
    end.

Definition emit (ev : event) : M unit :=
  fun w => (Ok tt, {| thread_name := thread_name w;
                      db := db w;
                      out := out w ++ [ev] |}).

(** [print(s)]. *)
Definition print (s : string) : M unit := emit (Print s).

(** [time.sleep(secs)]: blocks the calling thread, then returns. *)
Definition sleep (secs : Z) : M unit := emit (Sleep secs).

(** [threading.current_thread().name]. *)
Definition current_thread_name : M string :=
  fun w => (Ok (thread_name w), w).

(** [request.GET] is a [QueryDict]: a dictionary from a key to the list of
    the values given for it in the query string. *)
Record HttpRequest := mkHttpRequest { GET : gmap string (list string) }.

(** [QueryDict.get(key, default)]: the last value given for [key], or
    [default] when the key is absent or its list is empty. *)
Definition QueryDict_get (key default : string)
    (q : gmap string (list string)) : string :=
  match q !! key with
  | None => default
  | Some vs => List.last vs default
  end.

Record HttpResponse := mkHttpResponse { content : string; status_code : Z }.

(** [HttpResponse(content)]: status 200 unless told otherwise. *)
Definition HttpResponse_init (content : string) : HttpResponse :=
  {| content := content; status_code := 200 |}.

(** Whether a row of [auth_user] already carries the name.  The model
    imported at line 2 of [views.py], [django.contrib.auth.models.User],
    declares its column [username] unique. *)
Definition username_taken (name : string) (d : Database) : bool :=
  existsb (fun u => String.eqb (username u) name) (auth_user d).

Definition set_db (d : Database) : M unit :=
  fun w => (Ok tt, {| thread_name := thread_name w; db := d; out := out w |}).

Definition get_db : M Database := fun w => (Ok (db w), w).

(** [with transaction.atomic(): body].  The block opens a transaction; when
    [body] returns it is committed, and when [body] raises every write made
    inside is undone and the exception goes on to the caller.  What was
    printed, and the time spent, is not undone. *)
Definition atomic {A} (body : M A) : M A :=
  saved <- get_db ;;
  emit (Sql BEGIN) ;;
  fun w =>
    match body w with
    | (Ok a, w') => (emit (Sql COMMIT) ;; ret a) w'
    | (Raise e, w') => (set_db saved ;; emit (Sql ROLLBACK) ;; raise e) w'
    end.

(** A receiver connected to [post_save], with the sender it listens for:
    it is called as [receiver(sender, instance, created)]. *)
Definition Receiver : Type := ModelClass -> User -> bool -> M unit.

(** [post_save.send(sender, instance, created)]: calls the receivers
    connected for [sender] one after the other, in the calling thread, each
    to completion; an exception a receiver raises goes on to the caller. *)
Fixpoint send (receivers : list (ModelClass * Receiver))
    (sender : ModelClass) (instance : User) (created : bool) : M unit :=
  match receivers with
  | [] => ret tt
  | (s, f) :: rest =>
      (if decide (s = sender) then f sender instance created else ret tt) ;;
      send rest sender instance created
  end.

(** [User.objects.create(username=name)] with [receivers] connected to
    [post_save]: insert the row, then send [post_save] with
    [created=True], then return the instance.  A name that is already in
    the table violates the unique constraint: the insert raises
    [IntegrityError] (the message is the one of SQLite, the default
    backend), no row is written and no signal is sent. *)
Definition User_objects_create (receivers : list (ModelClass * Receiver))
    (name : string) : M User :=
  d <- get_db ;;
  if username_taken name d
  then raise (IntegrityError "UNIQUE constraint failed: auth_user.username")
  else
    let row := {| pk := auth_user_seq d; username := name |} in
    set_db {| auth_user := auth_user d ++ [row];
              auth_user_seq := auth_user_seq d + 1 |} ;;
    emit (Sql (INSERT row)) ;;
    send receivers auth_User row true ;;
    ret row.

(** ** signals.py *)

(** [user_post_save]: lines 9-20. *)
Definition user_post_save (sender : ModelClass) (instance : User)
    (created : bool) : M unit :=
  if created then
    t <- current_thread_name ;;
    print ("Signal handler running in thread: " +:+ t) ;;
    print ("Signal handler: User " +:+ username instance +:+ " created") ;;
    sleep 5 ;;
    print "Signal handler done after 5 seconds" ;;
    print "Signal handler completed."
  else ret tt.

(** [@receiver(post_save, sender=User)], line 8: what is connected to
    [post_save] once [signals.py] has been imported.  The import is done at
    start-up by the application's configuration, which is not among the
    sources; the specification has the notifier "registered to run
    automatically" whenever a User is newly created, and so it is
    connected in every state a request is served in. *)
Definition post_save_receivers : list (ModelClass * Receiver) :=
  [(auth_User, user_post_save)].

(** ** views.py *)

(** The body of the [with transaction.atomic():] block, lines 14-25. *)
Definition create_user_scope (request : HttpRequest) : M unit :=
  print "Starting user creation process..." ;;
  t <- current_thread_name ;;
  user <- User_objects_create post_save_receivers (t +:+ "1") ;;
  print "User creation process finished, but before committing transaction..." ;;
  if String.eqb (QueryDict_get "fail" "no" (GET request)) "yes"
  then raise (Exception "Simulating an error to roll back the transaction")
  else ret tt.

(** [create_user]: lines 7-32.  The [try] statement either falls through
    ([None]) or its [except] clause returns a response ([Some]). *)
Definition create_user (request : HttpRequest) : M HttpResponse :=
  t <- current_thread_name ;;
  print ("View running in thread: " +:+ t) ;;
  returned <-
    try_except
      (atomic (create_user_scope request) ;;
       ret None)
      (fun e =>
         print ("Exception occurred: " +:+ str e) ;;
         ret (Some (HttpResponse_init "Transaction failed, user was not created!"))) ;;
  match returned with
  | Some response => ret response
  | None => ret (HttpResponse_init "User created successfully!")
  end.

(** ** Observations on a run *)

(** The events a computation adds when started in [w]. *)
Definition events_of {A} (m : M A) (w : World) : list event :=
  drop (length (out w)) (out (snd (m w))).

(** The side effects of the notifier for a new [instance], served by the
    thread named [t]: what [user_post_save] adds to an empty record. *)
Definition notifier_effects (t : string) (instance : User) : list event :=
  events_of (user_post_save auth_User instance true)
    {| thread_name := t;
       db := {| auth_user := []; auth_user_seq := 1 |};
       out := [] |}.

(** [pat] is a block of consecutive events of [tr] at exactly one place,
    and no event of [tr] outside that block is a [P]. *)
Definition occurs_once (P : event -> Prop) (pat tr : list event) : Prop :=
  exists pre post,
    tr = pre ++ pat ++ post /\
    (forall pre' post', tr = pre' ++ pat ++ post' -> pre' = pre) /\
    (forall ev, In ev (pre ++ post) -> ~ P ev).

(** Every event of [tr] that is a [P] comes before every one that is a
    [Q]. *)
Definition happens_before (P Q : event -> Prop) (tr : list event) : Prop :=
  forall i j a b,
    tr !! i = Some a -> tr !! j = Some b -> P a -> Q b -> (i < j)%nat.

(** The four stages of a request. *)
Definition is_creation (ev : event) : Prop :=
  exists row, ev = Sql (INSERT row).

Definition is_notifier (t : string) (ev : event) : Prop :=
  exists instance, In ev (notifier_effects t instance).

Definition is_post_creation (ev : event) : Prop :=
  ev = Print "User creation process finished, but before committing transaction...".

Definition is_decision (ev : event) : Prop :=
  ev = Sql COMMIT \/ ev = Sql ROLLBACK.

(** The derived name, the row a request inserts and the two responses. *)
Definition new_name (w : World) : string := thread_name w +:+ "1".

Definition new_row (w : World) : User :=
  {| pk := auth_user_seq (db w); username := new_name w |}.

Definition success_response : HttpResponse :=
  HttpResponse_init "User created successfully!".

Definition failure_response : HttpResponse :=
  HttpResponse_init "Transaction failed, user was not created!".

(** Whether the request asks for the simulated failure (line 24). *)
Definition wants_failure (request : HttpRequest) : bool :=
  String.eqb (QueryDict_get "fail" "no" (GET request)) "yes".

(** A database nothing was written to yet, and a request served on it. *)
Definition empty_db : Database := {| auth_user := []; auth_user_seq := 1 |}.

Definition start (t : string) : World :=
  {| thread_name := t; db := empty_db; out := [] |}.

Definition plain_request : HttpRequest := {| GET := ∅ |}.

Definition failing_request : HttpRequest :=
  {| GET := {[ "fail" := ["yes"] ]} |}.

(** The state the thread [MainThread] leaves behind after it has served
    one plain request on an empty database. *)
Definition served_once : World :=
  snd (create_user plain_request (start "MainThread")).

(** 2.5, as mantissa 5 and exponent -1. *)
Definition two_and_a_half : spec_float := S754_finite false 5 (-1).

(** The time a run spends blocked in [time.sleep], in seconds. *)
Fixpoint time_slept (evs : list event) : Z :=
  match evs with
  | [] => 0
  | Sleep secs :: rest => secs + time_slept rest
  | _ :: rest => time_slept rest
  end.

(** Calls of [next], one for each address of [schedule] and in that order,
    as a program does that has several iterations of Rectangles under way:
    each address with what its call returned ([None] is StopIteration). *)
Fixpoint next_each (schedule : list nat) (h : Rectangle.heap)
  : list (nat * option (gmap string pyval)) * Rectangle.heap :=
  match schedule with
  | [] => ([], h)
  | a :: rest =>
      let '(y, h1) := Rectangle.next a h in
      let '(ys, h2) := next_each rest h1 in
      ((a, y) :: ys, h2)
  end.

(** What the calls on the generator at [a] returned, in order. *)
Definition returned_to (a : nat)
    (rs : list (nat * option (gmap string pyval)))
  : list (option (gmap string pyval)) :=
  map snd (filter (fun x => fst x = a) rs).

(** What [n] calls of [next] return on a generator that nothing else
    touches: the body of [__iter__] resumed [n] times. *)
Fixpoint resumes (n : nat) (g : Rectangle.generator)
  : list (option (gmap string pyval)) :=
  match n with
  | O => []
  | S n' =>
      fst (Rectangle.resume g) ::
      resumes n' {| Rectangle.self := Rectangle.self g;
                    Rectangle.at_ := snd (Rectangle.resume g) |}
  end.

(** ** The three ways a request can go *)

Section Runs.

Variable request : HttpRequest.
Variable w : World.

(** What [user_post_save] adds for the row a request inserts. *)
Lemma notifier_effects_eq t instance :
  notifier_effects t instance =
    [ Print ("Signal handler running in thread: " +:+ t);
      Print ("Signal handler: User " +:+ username instance +:+ " created");
      Sleep 5;
      Print "Signal handler done after 5 seconds";
      Print "Signal handler completed." ].
Proof. reflexivity. Qed.

(** The name is taken: the insert raises, the scope rolls back, the
    [except] clause answers. *)
Lemma create_user_taken :
  username_taken (new_name w) (db w) = true ->
  create_user request w =
    (Ok failure_response,
     {| thread_name := thread_name w;
        db := db w;
        out := out w ++
          [ Print ("View running in thread: " +:+ thread_name w);
            Sql BEGIN;
            Print "Starting user creation process...";
            Sql ROLLBACK;
            Print "Exception occurred: UNIQUE constraint failed: auth_user.username" ] |}).
Proof.
  intros Htaken. unfold new_name in Htaken.
  unfold create_user, try_except, atomic, create_user_scope,
    User_objects_create, bind, current_thread_name, print, emit, get_db,
    set_db, raise, ret.
  cbn [thread_name db out fst snd].
  rewrite Htaken. cbn [thread_name db out str].
  rewrite <- !app_assoc. reflexivity.
Qed.

(** The name is free and the request asks for the failure. *)
Lemma create_user_rolled_back :
  username_taken (new_name w) (db w) = false ->
  wants_failure request = true ->
  create_user request w =
    (Ok failure_response,
     {| thread_name := thread_name w;
        db := db w;
        out := out w ++
          [ Print ("View running in thread: " +:+ thread_name w);
            Sql BEGIN;
            Print "Starting user creation process...";
            Sql (INSERT (new_row w)) ] ++
          notifier_effects (thread_name w) (new_row w) ++
          [ Print "User creation process finished, but before committing transaction...";
            Sql ROLLBACK;
            Print "Exception occurred: Simulating an error to roll back the transaction" ] |}).
Proof.
  intros Hfree Hfail. unfold new_name in Hfree. unfold wants_failure in Hfail.
  rewrite notifier_effects_eq.
  unfold create_user, try_except, atomic, create_user_scope,
    User_objects_create, bind, current_thread_name, print, emit, get_db,
    set_db, raise, ret.
  cbn [thread_name db out fst snd].
  rewrite Hfree.
  cbn [send post_save_receivers].
  destruct (decide (auth_User = auth_User)) as [_|[]]; [|reflexivity].
  unfold user_post_save, bind, current_thread_name, print, sleep, emit, ret.
  cbn [thread_name db out fst snd].
  rewrite Hfail. cbn [thread_name db out str].
  rewrite <- !app_assoc. reflexivity.
Qed.

(** The name is free and no failure is asked for. *)
Lemma create_user_committed :
  username_taken (new_name w) (db w) = false ->
  wants_failure request = false ->
  create_user request w =
    (Ok success_response,
     {| thread_name := thread_name w;
        db := {| auth_user := auth_user (db w) ++ [new_row w];
                 auth_user_seq := auth_user_seq (db w) + 1 |};
        out := out w ++
          [ Print ("View running in thread: " +:+ thread_name w);
            Sql BEGIN;
            Print "Starting user creation process...";
            Sql (INSERT (new_row w)) ] ++
          notifier_effects (thread_name w) (new_row w) ++
          [ Print "User creation process finished, but before committing transaction...";
            Sql COMMIT ] |}).
Proof.
  intros Hfree Hfail. unfold new_name in Hfree. unfold wants_failure in Hfail.
  rewrite notifier_effects_eq.
  unfold create_user, try_except, atomic, create_user_scope,
    User_objects_create, bind, current_thread_name, print, emit, get_db,
    set_db, raise, ret.
  cbn [thread_name db out fst snd].
  rewrite Hfree.
  cbn [send post_save_receivers].
  destruct (decide (auth_User = auth_User)) as [_|[]]; [|reflexivity].
  unfold user_post_save, bind, current_thread_name, print, sleep, emit, ret.
  cbn [thread_name db out fst snd].
  rewrite Hfail. cbn [thread_name db out str].
  rewrite <- !app_assoc. reflexivity.
Qed.

End Runs.

(** ** Rectangle: construction and iteration *)

Module RectangleFacts.
Import Rectangle.

Lemma next_fresh r p (m : gmap nat generator) a n :
  next a {| gens := <[a := {| self := r; at_ := p |}]> m; fresh := n |} =
    (fst (resume {| self := r; at_ := p |}),
     {| gens := <[a := {| self := r;
                          at_ := snd (resume {| self := r; at_ := p |}) |}]> m;
        fresh := n |}).
Proof.
  unfold next. cbn [gens fresh]. rewrite lookup_insert_eq.
  destruct p; cbn; rewrite insert_insert_eq; reflexivity.
Qed.

(** Three calls of [next] exhaust a new generator; more fuel changes
    nothing. *)
Lemma drain_new r (m : gmap nat generator) a n fuel :
  drain (3 + fuel) a {| gens := <[a := {| self := r; at_ := AtStart |}]> m;
                        fresh := n |} =
    ([ {[ "length" := l r ]}; {[ "width" := b r ]} ],
     {| gens := <[a := {| self := r; at_ := Done |}]> m; fresh := n |}).
Proof.
  cbn [drain Nat.add].
  rewrite next_fresh. cbn [resume at_ self fst snd].
  rewrite next_fresh. cbn [resume at_ self fst snd].
  rewrite next_fresh. cbn [resume at_ self fst snd].
  reflexivity.
Qed.

Lemma to_list_eq r h :
  to_list r h =
    ([ {[ "length" := l r ]}; {[ "width" := b r ]} ],
     {| gens := <[fresh h := {| self := r; at_ := Done |}]> (gens h);
        fresh := S (fresh h) |}).
Proof. unfold to_list, __iter__. apply (drain_new r (gens h) (fresh h) _ 0). Qed.

Lemma init_raises_iff x y :
  __init__ x y = Raise (ValueError "Length and Breadth must be numbers") <->
  isinstance x Tint = false \/ isinstance y Tint = false.
Proof.
  unfold __init__.
  destruct (isinstance x Tint), (isinstance y Tint); cbn;
    split; intros H; try discriminate; try reflexivity; auto;
    destruct H; discriminate.
Qed.

(** C6: iterating [Rectangle(3, 4)] yields the mapping [{"length": 3}] and
    then the mapping [{"width": 4}] and nothing else, however many more
    times [next] would be called; a second iteration of the same instance,
    started after the first, yields the same two mappings. *)
Theorem iterate_3_4_twice (h : heap) :
  exists r,
    __init__ (PyInt 3) (PyInt 4) = Ok r /\
    fst (to_list r h) =
      [ {[ "length" := PyInt 3 ]}; {[ "width" := PyInt 4 ]} ] /\
    fst (to_list r (snd (to_list r h))) =
      [ {[ "length" := PyInt 3 ]}; {[ "width" := PyInt 4 ]} ] /\
    forall fuel,
      fst (drain (3 + fuel) (fst (__iter__ r h)) (snd (__iter__ r h))) =
        [ {[ "length" := PyInt 3 ]}; {[ "width" := PyInt 4 ]} ].
Proof.
  exists {| l := PyInt 3; b := PyInt 4 |}.
  split; [reflexivity|].
  rewrite !to_list_eq. cbn [fst snd l b].
  repeat split.
  intros fuel. unfold __iter__. cbn [fst snd].
  rewrite drain_new. reflexivity.
Qed.

(** Two iterations of one instance that are advanced in turn do not
    disturb each other. *)
Lemma iterations_independent r h :
  let '(g1, h1) := __iter__ r h in
  let '(g2, h2) := __iter__ r h1 in
  let '(y1, h3) := next g1 h2 in
  let '(y2, h4) := next g2 h3 in
  let '(y3, h5) := next g1 h4 in
  let '(y4, h6) := next g2 h5 in
  [y1; y2; y3; y4] =
    [ Some {[ "length" := l r ]}; Some {[ "length" := l r ]};
      Some {[ "width" := b r ]}; Some {[ "width" := b r ]} ].
Proof.
  unfold __iter__, next. cbn [gens fresh].
  assert (Hne : fresh h <> S (fresh h)) by lia.
  repeat (first [ rewrite lookup_insert_eq
                | rewrite lookup_insert_ne by (first [exact Hne | exact (not_eq_sym Hne)]) ];
          cbn [resume at_ self gens fresh]).
  reflexivity.
Qed.

(** C7: construction raises the invalid-argument error ([ValueError])
    whenever the length argument or the width argument is not an instance
    of [int], whichever of the two positions it is in; with two instances
    of [int] it succeeds and stores both. *)
Theorem init_checks_both_arguments (x y : pyval) :
  (isinstance x Tint = false -> exists msg, __init__ x y = Raise (ValueError msg)) /\
  (isinstance y Tint = false -> exists msg, __init__ x y = Raise (ValueError msg)) /\
  (isinstance x Tint = true -> isinstance y Tint = true ->
     __init__ x y = Ok {| l := x; b := y |}).
Proof.
  unfold __init__. repeat split.
  - intros ->. eexists. reflexivity.
  - intros ->. rewrite orb_true_r. eexists. reflexivity.
  - intros -> ->. reflexivity.
Qed.

Lemma init_checks_both_arguments_witness :
  (exists msg, __init__ (PyStr "3") (PyInt 4) = Raise (ValueError msg)) /\
  (exists msg, __init__ (PyInt 3) PyNone = Raise (ValueError msg)) /\
  __init__ (PyInt 3) (PyInt 4) = Ok {| l := PyInt 3; b := PyInt 4 |}.
Proof.
  split; [|split].
  - apply (proj1 (init_checks_both_arguments (PyStr "3") (PyInt 4))).
    reflexivity.
  - apply (proj1 (proj2 (init_checks_both_arguments (PyInt 3) PyNone))).
    reflexivity.
  - apply (proj2 (proj2 (init_checks_both_arguments (PyInt 3) (PyInt 4))));
      reflexivity.
Defined.

(** C10: construction raises [ValueError("Length and Breadth must be
    numbers")] if and only if at least one argument is not an instance of
    [int]; a float in either position is rejected, although it is a
    number, and booleans are accepted, [bool] being a subclass of
    [int]. *)
Theorem init_type_check (x y : pyval) :
  (__init__ x y = Raise (ValueError "Length and Breadth must be numbers") <->
     isinstance x Tint = false \/ isinstance y Tint = false) /\
  (forall f,
     __init__ (PyFloat f) y = Raise (ValueError "Length and Breadth must be numbers") /\
     __init__ x (PyFloat f) = Raise (ValueError "Length and Breadth must be numbers")) /\
  (forall s t,
     __init__ (PyBool s) (PyBool t) = Ok {| l := PyBool s; b := PyBool t |}) /\
  (forall s z,
     __init__ (PyBool s) (PyInt z) = Ok {| l := PyBool s; b := PyInt z |} /\
     __init__ (PyInt z) (PyBool s) = Ok {| l := PyInt z; b := PyBool s |}).
Proof.
  split; [apply init_raises_iff|].
  split; [|split; [reflexivity|split; reflexivity]].
  intros f. split; [reflexivity|].
  apply init_raises_iff. right. reflexivity.
Qed.

Lemma init_type_check_witness :
  __init__ (PyFloat two_and_a_half) (PyInt 4) =
    Raise (ValueError "Length and Breadth must be numbers") /\
  __init__ (PyBool true) (PyBool false) =
    Ok {| l := PyBool true; b := PyBool false |}.
Proof.
  split.
  - apply (proj1 (init_type_check (PyFloat two_and_a_half) (PyInt 4))).
    left. reflexivity.
  - apply (proj1 (proj2 (proj2 (init_type_check PyNone PyNone)))).
Defined.

End RectangleFacts.

(** ** Events of a request *)

Lemma wants_failure_true request :
  wants_failure request = true <->
  QueryDict_get "fail" "no" (GET request) = "yes".
Proof. unfold wants_failure. apply String.eqb_eq. Qed.

Lemma wants_failure_false request :
  wants_failure request = false <->
  QueryDict_get "fail" "no" (GET request) <> "yes".
Proof. unfold wants_failure. apply String.eqb_neq. Qed.

Lemma events_of_out {A} (m : M A) w evs :
  out (snd (m w)) = out w ++ evs -> events_of m w = evs.
Proof. intros H. unfold events_of. rewrite H. apply drop_app_length. Qed.

Lemma events_taken request w :
  username_taken (new_name w) (db w) = true ->
  events_of (create_user request) w =
    [ Print ("View running in thread: " +:+ thread_name w);
      Sql BEGIN;
      Print "Starting user creation process...";
      Sql ROLLBACK;
      Print "Exception occurred: UNIQUE constraint failed: auth_user.username" ].
Proof.
  intros H. apply events_of_out. rewrite create_user_taken by exact H.
  reflexivity.
Qed.

Lemma events_rolled_back request w :
  username_taken (new_name w) (db w) = false ->
  wants_failure request = true ->
  events_of (create_user request) w =
    [ Print ("View running in thread: " +:+ thread_name w);
      Sql BEGIN;
      Print "Starting user creation process...";
      Sql (INSERT (new_row w)) ] ++
    notifier_effects (thread_name w) (new_row w) ++
    [ Print "User creation process finished, but before committing transaction...";
      Sql ROLLBACK;
      Print "Exception occurred: Simulating an error to roll back the transaction" ].
Proof.
  intros H1 H2. apply events_of_out.
  rewrite create_user_rolled_back by assumption. reflexivity.
Qed.

Lemma events_committed request w :
  username_taken (new_name w) (db w) = false ->
  wants_failure request = false ->
  events_of (create_user request) w =
    [ Print ("View running in thread: " +:+ thread_name w);
      Sql BEGIN;
      Print "Starting user creation process...";
      Sql (INSERT (new_row w)) ] ++
    notifier_effects (thread_name w) (new_row w) ++
    [ Print "User creation process finished, but before committing transaction...";
      Sql COMMIT ].
Proof.
  intros H1 H2. apply events_of_out.
  rewrite create_user_committed by assumption. reflexivity.
Qed.

(** An [INSERT] among the events of a request means the name was free,
    and the row is the one made from the thread name. *)
Lemma insert_seen request w row :
  In (Sql (INSERT row)) (events_of (create_user request) w) ->
  username_taken (new_name w) (db w) = false /\ row = new_row w.
Proof.
  destruct (username_taken (new_name w) (db w)) eqn:Htaken.
  - rewrite events_taken by exact Htaken. cbn [In].
    intros H. exfalso.
    repeat (destruct H as [H|H]; [discriminate H|]). exact H.
  - intros H. split; [reflexivity|].
    destruct (wants_failure request) eqn:Hfail;
      [ rewrite events_rolled_back in H by assumption
      | rewrite events_committed in H by assumption ];
      rewrite notifier_effects_eq in H; cbn [In app] in H;
      repeat (destruct H as [H|H];
              [first [discriminate H | (injection H as H; symmetry; exact H)]|]);
      destruct H.
Qed.

(** ** Order of events *)

(** If no [P] is left from position [n] on and no [Q] comes before it,
    every [P] comes before every [Q]. *)
Lemma happens_before_split (P Q : event -> Prop) (tr : list event) (n : nat) :
  (forall a, In a (drop n tr) -> ~ P a) ->
  (forall b, In b (take n tr) -> ~ Q b) ->
  happens_before P Q tr.
Proof.
  intros HP HQ i j a b Hi Hj Pa Qb.
  destruct (decide (n <= i)%nat) as [Hni|Hni].
  - exfalso. apply (HP a); [|exact Pa].
    apply list_elem_of_In. apply (list_elem_of_lookup_2 _ (i - n)%nat).
    rewrite lookup_drop. replace (n + (i - n))%nat with i by lia. exact Hi.
  - destruct (decide (j < n)%nat) as [Hjn|Hjn]; [|lia].
    exfalso. apply (HQ b); [|exact Qb].
    apply list_elem_of_In. apply (list_elem_of_lookup_2 _ j).
    rewrite lookup_take_lt by exact Hjn. exact Hj.
Qed.

(** An event that is not of the stage [Hs] says it is. *)
Ltac refute_stage Hs :=
  lazymatch type of Hs with
  | is_creation _ =>
      destruct Hs as [? Hs]; discriminate Hs
  | is_notifier _ _ =>
      destruct Hs as [? Hs];
      rewrite notifier_effects_eq in Hs; cbn [In] in Hs;
      repeat (destruct Hs as [Hs|Hs]; [discriminate Hs|]);
      destruct Hs
  | is_post_creation _ =>
      unfold is_post_creation in Hs; discriminate Hs
  | is_decision _ =>
      destruct Hs as [Hs|Hs]; discriminate Hs
  end.

(** No event of an explicit list is of the given stage. *)
Ltac none_of_stage :=
  let a := fresh "a" in
  let Ha := fresh "Ha" in
  let Hs := fresh "Hs" in
  intros a Ha Hs;
  cbn [drop take app In] in Ha;
  repeat (destruct Ha as [Ha|Ha]; [subst a; refute_stage Hs|]);
  destruct Ha.

Lemma order_taken request w :
  username_taken (new_name w) (db w) = true ->
  happens_before is_creation (is_notifier (thread_name w))
    (events_of (create_user request) w) /\
  happens_before (is_notifier (thread_name w)) is_post_creation
    (events_of (create_user request) w) /\
  happens_before is_post_creation is_decision
    (events_of (create_user request) w).
Proof.
  intros H. rewrite events_taken by exact H.
  split; [|split].
  - apply (happens_before_split _ _ _ 0); none_of_stage.
  - apply (happens_before_split _ _ _ 0); none_of_stage.
  - apply (happens_before_split _ _ _ 0); none_of_stage.
Qed.

Lemma order_free request w :
  username_taken (new_name w) (db w) = false ->
  happens_before is_creation (is_notifier (thread_name w))
    (events_of (create_user request) w) /\
  happens_before (is_notifier (thread_name w)) is_post_creation
    (events_of (create_user request) w) /\
  happens_before is_post_creation is_decision
    (events_of (create_user request) w).
Proof.
  intros H.
  destruct (wants_failure request) eqn:Hfail;
    [ rewrite events_rolled_back by assumption
    | rewrite events_committed by assumption ];
    rewrite notifier_effects_eq; cbn [app];
    (split; [|split]);
    [ apply (happens_before_split _ _ _ 4); none_of_stage
    | apply (happens_before_split _ _ _ 9); none_of_stage
    | apply (happens_before_split _ _ _ 10); none_of_stage
    | apply (happens_before_split _ _ _ 4); none_of_stage
    | apply (happens_before_split _ _ _ 9); none_of_stage
    | apply (happens_before_split _ _ _ 10); none_of_stage ].
Qed.

(** [pre] is the only place of [pat] in an explicit list: peel the list
    from the front, refuting every other place by its first event. *)
Ltac only_place H p :=
  cbn [app] in H;
  destruct p as [|? p];
  [ first [discriminate H | reflexivity]
  | first [ discriminate H
          | (injection H as ? H; subst; only_place H p) ] ].

(** ** The notifier: signals.py *)

(** C5: called for a newly created instance, the notifier logs the name of
    the current thread, then a creation message that contains the entity's
    name, then blocks for 5 seconds, then logs completion (in two lines),
    in this order and with nothing else; it raises nothing and leaves the
    database alone. *)
Theorem user_post_save_created (sender : ModelClass) (instance : User)
    (w : World) :
  user_post_save sender instance true w =
    (Ok tt,
     {| thread_name := thread_name w;
        db := db w;
        out := out w ++
          [ Print ("Signal handler running in thread: " +:+ thread_name w);
            Print ("Signal handler: User " +:+ username instance +:+ " created");
            Sleep 5;
            Print "Signal handler done after 5 seconds";
            Print "Signal handler completed." ] |}) /\
  exists before after,
    "Signal handler: User " +:+ username instance +:+ " created" =
      before +:+ username instance +:+ after.
Proof.
  split.
  - unfold user_post_save, bind, current_thread_name, print, sleep, emit, ret.
    cbn [thread_name db out]. rewrite <- !app_assoc. reflexivity.
  - exists "Signal handler: User ", " created". reflexivity.
Qed.

(** C9: called for a save that is not a creation ([created] false), the
    callback returns at once: nothing is logged, there is no delay, and the
    state is the one it was called in. *)
Theorem user_post_save_not_created (sender : ModelClass) (instance : User)
    (w : World) :
  user_post_save sender instance false w = (Ok tt, w) /\
  events_of (user_post_save sender instance false) w = [].
Proof.
  split; [reflexivity|].
  unfold events_of. cbn [user_post_save ret snd]. apply drop_all.
Qed.

(** ** The request handler: views.py *)

(** C1: in every request in which the insert of the User row is executed,
    the notifier's whole sequence (thread log, creation message, 5-second
    delay, two completion logs) is among the events of the request as one
    block at exactly one place, and no event of the notifier occurs outside
    that block; this holds when the request asks for the failure, and the
    transaction is then rolled back, as well as when it does not, and the
    transaction is then committed. *)
Theorem notifier_runs_exactly_once (request : HttpRequest) (w : World)
    (row : User) :
  In (Sql (INSERT row)) (events_of (create_user request) w) ->
  occurs_once (is_notifier (thread_name w))
    (notifier_effects (thread_name w) row)
    (events_of (create_user request) w) /\
  (QueryDict_get "fail" "no" (GET request) = "yes" ->
     In (Sql ROLLBACK) (events_of (create_user request) w) /\
     ~ In (Sql COMMIT) (events_of (create_user request) w)) /\
  (QueryDict_get "fail" "no" (GET request) <> "yes" ->
     In (Sql COMMIT) (events_of (create_user request) w) /\
     ~ In (Sql ROLLBACK) (events_of (create_user request) w)).
Proof.
  intros Hin. apply insert_seen in Hin as [Hfree ->].
  destruct (wants_failure request) eqn:Hfail.
  - rewrite events_rolled_back by assumption.
    apply wants_failure_true in Hfail.
    split; [|split; [|intros Hne; contradiction]].
    + eexists _, _. split; [reflexivity|]. split.
      * intros pre' post' H.
        rewrite notifier_effects_eq in H. symmetry. only_place H pre'.
      * none_of_stage.
    + intros _. rewrite notifier_effects_eq. cbn [app In]. split.
      * do 10 right. left. reflexivity.
      * intros H. repeat (destruct H as [H|H]; [discriminate H|]). exact H.
  - rewrite events_committed by assumption.
    apply wants_failure_false in Hfail.
    split; [|split; [intros Heq; contradiction|]].
    + eexists _, _. split; [reflexivity|]. split.
      * intros pre' post' H.
        rewrite notifier_effects_eq in H. symmetry. only_place H pre'.
      * none_of_stage.
    + intros _. rewrite notifier_effects_eq. cbn [app In]. split.
      * do 10 right. left. reflexivity.
      * intros H. repeat (destruct H as [H|H]; [discriminate H|]). exact H.
Qed.

(** The body of the transactional scope when the name is free: the row is
    written, the notifier runs, and the body ends by raising the simulated
    failure or by falling through. *)
Lemma scope_free request w :
  username_taken (new_name w) (db w) = false ->
  create_user_scope request w =
    (if wants_failure request
     then Raise (Exception "Simulating an error to roll back the transaction")
     else Ok tt,
     {| thread_name := thread_name w;
        db := {| auth_user := auth_user (db w) ++ [new_row w];
                 auth_user_seq := auth_user_seq (db w) + 1 |};
        out := out w ++
          [ Print "Starting user creation process...";
            Sql (INSERT (new_row w)) ] ++
          notifier_effects (thread_name w) (new_row w) ++
          [ Print "User creation process finished, but before committing transaction..." ] |}).
Proof.
  intros Hfree. unfold new_name in Hfree. rewrite notifier_effects_eq.
  unfold create_user_scope, User_objects_create, bind, current_thread_name,
    print, emit, get_db, set_db, raise, ret.
  cbn [thread_name db out fst snd].
  rewrite Hfree.
  cbn [send post_save_receivers].
  destruct (decide (auth_User = auth_User)) as [_|[]]; [|reflexivity].
  unfold user_post_save, bind, current_thread_name, print, sleep, emit, ret.
  cbn [thread_name db out fst snd].
  unfold wants_failure.
  destruct (String.eqb (QueryDict_get "fail" "no" (GET request)) "yes");
    cbn [thread_name db out]; rewrite <- !app_assoc; reflexivity.
Qed.

(** C4: in every request the events are in the order of the four stages:
    every insert of a User row comes before every event of the notifier,
    every event of the notifier (its delay and its completion logs too)
    comes before the handler's post-creation code, and that comes before the
    commit or the rollback; and when the row is inserted, the request's
    events are, one after the other, the insert, the notifier's whole
    sequence, the post-creation log and the decision. *)
Theorem request_stages_in_order (request : HttpRequest) (w : World) :
  happens_before is_creation (is_notifier (thread_name w))
    (events_of (create_user request) w) /\
  happens_before (is_notifier (thread_name w)) is_post_creation
    (events_of (create_user request) w) /\
  happens_before is_post_creation is_decision
    (events_of (create_user request) w) /\
  (forall row,
     In (Sql (INSERT row)) (events_of (create_user request) w) ->
     exists decision rest,
       is_decision (Sql decision) /\
       events_of (create_user request) w =
         [ Print ("View running in thread: " +:+ thread_name w);
           Sql BEGIN;
           Print "Starting user creation process..." ] ++
         [ Sql (INSERT row) ] ++
         notifier_effects (thread_name w) row ++
         [ Print "User creation process finished, but before committing transaction..." ] ++
         [ Sql decision ] ++ rest).
Proof.
  assert (Horder :
    happens_before is_creation (is_notifier (thread_name w))
      (events_of (create_user request) w) /\
    happens_before (is_notifier (thread_name w)) is_post_creation
      (events_of (create_user request) w) /\
    happens_before is_post_creation is_decision
      (events_of (create_user request) w)).
  { destruct (username_taken (new_name w) (db w)) eqn:Htaken;
      [apply order_taken | apply order_free]; exact Htaken. }
  destruct Horder as (H1 & H2 & H3).
  repeat (split; [assumption|]).
  intros row Hin. apply insert_seen in Hin as [Hfree ->].
  destruct (wants_failure request) eqn:Hfail.
  - exists ROLLBACK,
      [ Print "Exception occurred: Simulating an error to roll back the transaction" ].
    split; [right; reflexivity|].
    rewrite events_rolled_back by assumption. reflexivity.
  - exists COMMIT, [].
    split; [left; reflexivity|].
    rewrite events_committed by assumption. reflexivity.
Qed.

Lemma request_stages_in_order_witness :
  exists decision rest,
    is_decision (Sql decision) /\
    events_of (create_user failing_request) (start "MainThread") =
      [ Print ("View running in thread: " +:+ "MainThread");
        Sql BEGIN;
        Print "Starting user creation process..." ] ++
      [ Sql (INSERT {| pk := 1; username := "MainThread1" |}) ] ++
      notifier_effects "MainThread" {| pk := 1; username := "MainThread1" |} ++
      [ Print "User creation process finished, but before committing transaction..." ] ++
      [ Sql decision ] ++ rest.
Proof.
  apply (proj2 (proj2 (proj2
           (request_stages_in_order failing_request (start "MainThread"))))).
  vm_compute. do 3 right. left. reflexivity.
Defined.

Lemma notifier_runs_exactly_once_witness :
  occurs_once (is_notifier "MainThread")
    (notifier_effects "MainThread" {| pk := 1; username := "MainThread1" |})
    (events_of (create_user failing_request) (start "MainThread")) /\
  In (Sql ROLLBACK) (events_of (create_user failing_request) (start "MainThread")).
Proof.
  assert (Hin : In (Sql (INSERT {| pk := 1; username := "MainThread1" |}))
                  (events_of (create_user failing_request) (start "MainThread"))).
  { vm_compute. do 3 right. left. reflexivity. }
  split.
  - exact (proj1 (notifier_runs_exactly_once failing_request
                    (start "MainThread") _ Hin)).
  - apply (proj1 (proj2 (notifier_runs_exactly_once failing_request
                           (start "MainThread") _ Hin))).
    reflexivity.
Defined.

(** C8: the User row a request inserts has as its name the name of the
    thread that serves the request followed by the suffix ["1"], and it is
    the only row the request adds to the table. *)
Theorem created_user_name (request : HttpRequest) (w : World) (row : User) :
  In (Sql (INSERT row)) (events_of (create_user request) w) ->
  username row = thread_name w +:+ "1" /\
  forall u,
    In u (auth_user (db (snd (create_user request w)))) ->
    In u (auth_user (db w)) \/ u = row.
Proof.
  intros Hin. apply insert_seen in Hin as [Hfree ->].
  split; [reflexivity|].
  intros u.
  destruct (wants_failure request) eqn:Hfail.
  - rewrite create_user_rolled_back by assumption. cbn [snd db]. auto.
  - rewrite create_user_committed by assumption. cbn [snd db auth_user].
    intros Hu. apply in_app_or in Hu as [Hu|[Hu|[]]]; [left|right]; auto.
Qed.

Lemma created_user_name_witness :
  username {| pk := 1; username := "MainThread1" |} = "MainThread" +:+ "1".
Proof.
  refine (proj1 (created_user_name plain_request (start "MainThread")
                   {| pk := 1; username := "MainThread1" |} _)).
  vm_compute. do 3 right. left. reflexivity.
Defined.

(** C2, as amended: for every request whose parameter [fail] is ["yes"],
    the handler returns exactly ["Transaction failed, user was not
    created!"] and the database is after the request what it was before;
    and when no row has the derived name yet, the body of the transactional
    scope inserts the row and then raises the simulated failure, the scope
    rolls back, the handler logs that failure, and no row with the name
    exists after the request. *)
Theorem failing_request_rolls_back (request : HttpRequest) (w : World) :
  QueryDict_get "fail" "no" (GET request) = "yes" ->
  fst (create_user request w) = Ok failure_response /\
  db (snd (create_user request w)) = db w /\
  (username_taken (thread_name w +:+ "1") (db w) = false ->
     fst (create_user_scope request w) =
       Raise (Exception "Simulating an error to roll back the transaction") /\
     In (Sql (INSERT (new_row w))) (events_of (create_user_scope request) w) /\
     events_of (create_user request) w =
       [ Print ("View running in thread: " +:+ thread_name w);
         Sql BEGIN;
         Print "Starting user creation process...";
         Sql (INSERT (new_row w)) ] ++
       notifier_effects (thread_name w) (new_row w) ++
       [ Print "User creation process finished, but before committing transaction...";
         Sql ROLLBACK;
         Print "Exception occurred: Simulating an error to roll back the transaction" ] /\
     username_taken (thread_name w +:+ "1")
       (db (snd (create_user request w))) = false).
Proof.
  intros Hfail. apply wants_failure_true in Hfail.
  destruct (username_taken (new_name w) (db w)) eqn:Htaken.
  - rewrite create_user_taken by exact Htaken. cbn [fst snd db].
    split; [reflexivity|]. split; [reflexivity|].
    unfold new_name in Htaken. intros Hfree. congruence.
  - rewrite create_user_rolled_back by assumption. cbn [fst snd db].
    split; [reflexivity|]. split; [reflexivity|].
    intros Hfree. split; [|split; [|split]].
    + rewrite scope_free by exact Htaken. rewrite Hfail. reflexivity.
    + rewrite (events_of_out _ _ _
                 (f_equal (fun r => out (snd r)) (scope_free request w Htaken))).
      cbn [app In]. right. left. reflexivity.
    + apply events_rolled_back; assumption.
    + exact Hfree.
Qed.

Lemma failing_request_rolls_back_witness :
  fst (create_user failing_request (start "MainThread")) = Ok failure_response /\
  db (snd (create_user failing_request (start "MainThread"))) = empty_db /\
  fst (create_user_scope failing_request (start "MainThread")) =
    Raise (Exception "Simulating an error to roll back the transaction").
Proof.
  assert (Hfail : QueryDict_get "fail" "no" (GET failing_request) = "yes")
    by reflexivity.
  pose proof (failing_request_rolls_back failing_request
                (start "MainThread") Hfail) as (H1 & H2 & H3).
  split; [exact H1|]. split; [exact H2|].
  apply H3. reflexivity.
Defined.

(** C2 as stated fails when the name is taken: the second of two requests
    served by the thread [MainThread] asks for the failure, but the insert
    itself raises, so no entity is created, the failure raised in the scope
    is not the simulated one, and a User with the name exists afterwards
    (the one the first request committed). *)
Lemma failing_request_counterexample :
  QueryDict_get "fail" "no" (GET failing_request) = "yes" /\
  ~ (fst (create_user_scope failing_request served_once) =
       Raise (Exception "Simulating an error to roll back the transaction") /\
     In (Sql (INSERT (new_row served_once)))
        (events_of (create_user_scope failing_request) served_once) /\
     username_taken (thread_name served_once +:+ "1")
       (db (snd (create_user failing_request served_once))) = false) /\
  fst (create_user_scope failing_request served_once) =
    Raise (IntegrityError "UNIQUE constraint failed: auth_user.username") /\
  (forall row,
     ~ In (Sql (INSERT row))
          (events_of (create_user failing_request) served_once)) /\
  username_taken (thread_name served_once +:+ "1")
    (db (snd (create_user failing_request served_once))) = true.
Proof.
  split; [reflexivity|].
  split; [intros (H & _); vm_compute in H; discriminate H|].
  split; [reflexivity|].
  split; [|reflexivity].
  intros row H. vm_compute in H.
  repeat (destruct H as [H|H]; [discriminate H|]). exact H.
Qed.

(** C3, as amended: for every request whose parameter [fail] is absent or
    is not ["yes"], served when no row has the derived name yet, the body of
    the transactional scope raises nothing, the scope commits on exit, the
    created row is in the table after the request, and the handler returns
    exactly ["User created successfully!"]. *)
Theorem plain_request_commits (request : HttpRequest) (w : World) :
  QueryDict_get "fail" "no" (GET request) <> "yes" ->
  username_taken (thread_name w +:+ "1") (db w) = false ->
  fst (create_user_scope request w) = Ok tt /\
  events_of (create_user request) w =
    [ Print ("View running in thread: " +:+ thread_name w);
      Sql BEGIN;
      Print "Starting user creation process...";
      Sql (INSERT (new_row w)) ] ++
    notifier_effects (thread_name w) (new_row w) ++
    [ Print "User creation process finished, but before committing transaction...";
      Sql COMMIT ] /\
  auth_user (db (snd (create_user request w))) = auth_user (db w) ++ [new_row w] /\
  username_taken (thread_name w +:+ "1")
    (db (snd (create_user request w))) = true /\
  fst (create_user request w) = Ok success_response.
Proof.
  intros Hfail Hfree. apply wants_failure_false in Hfail.
  change (username_taken (new_name w) (db w) = false) in Hfree.
  split; [rewrite scope_free by exact Hfree; rewrite Hfail; reflexivity|].
  split; [apply events_committed; assumption|].
  rewrite create_user_committed by assumption. cbn [fst snd db auth_user].
  repeat split.
  unfold username_taken. cbn [auth_user]. rewrite existsb_app.
  cbn [existsb new_row username]. unfold new_name.
  rewrite String.eqb_refl. rewrite orb_true_r. reflexivity.
Qed.

Lemma plain_request_commits_witness :
  fst (create_user plain_request (start "MainThread")) = Ok success_response /\
  auth_user (db (snd (create_user plain_request (start "MainThread")))) =
    [ {| pk := 1; username := "MainThread1" |} ].
Proof.
  assert (Hfail : QueryDict_get "fail" "no" (GET plain_request) <> "yes")
    by (vm_compute; discriminate).
  assert (Hfree : username_taken (thread_name (start "MainThread") +:+ "1")
                    (db (start "MainThread")) = false) by reflexivity.
  pose proof (plain_request_commits plain_request (start "MainThread")
                Hfail Hfree) as (_ & _ & H3 & _ & H5).
  split; [exact H5|exact H3].
Defined.

(** C3 as stated fails when the name is taken: the thread [MainThread]
    serves the same plain request a second time; the insert raises, the
    scope rolls back instead of committing, and the handler returns the
    failure text. *)
Lemma plain_request_counterexample :
  QueryDict_get "fail" "no" (GET plain_request) <> "yes" /\
  ~ (fst (create_user_scope plain_request served_once) = Ok tt /\
     In (Sql COMMIT) (events_of (create_user plain_request) served_once) /\
     fst (create_user plain_request served_once) = Ok success_response) /\
  fst (create_user plain_request served_once) = Ok failure_response.
Proof.
  split; [vm_compute; discriminate|].
  split; [|reflexivity].
  intros (H & _). vm_compute in H. discriminate H.
Qed.

(** ** Rectangle: further properties of construction and iteration *)

Module RectangleIteration.
Import Rectangle.

Lemma next_at (h : heap) a g :
  gens h !! a = Some g ->
  next a h =
    (fst (resume g),
     {| gens := <[a := {| self := self g; at_ := snd (resume g) |}]> (gens h);
        fresh := fresh h |}).
Proof. intros H. unfold next. rewrite H. destruct (resume g). reflexivity. Qed.

(** A call of [next] on one generator leaves every other one as it is. *)
Lemma next_other (h : heap) a a' :
  a' <> a -> gens (snd (next a' h)) !! a = gens h !! a.
Proof.
  intros Hne. unfold next.
  destruct (gens h !! a') as [g|]; [|reflexivity].
  destruct (resume g). cbn [snd gens].
  apply lookup_insert_ne. exact Hne.
Qed.

Lemma resumes_done r n :
  resumes n {| self := r; at_ := Done |} = replicate n None.
Proof. induction n as [|n IH]; [reflexivity|]. cbn. rewrite IH. reflexivity. Qed.

Lemma resumes_new r n :
  resumes n {| self := r; at_ := AtStart |} =
    take n (Some {[ "length" := l r ]} :: Some {[ "width" := b r ]} ::
            replicate n None).
Proof.
  destruct n as [|[|n]]; [reflexivity|reflexivity|].
  cbn [resumes resume at_ self fst snd take]. rewrite resumes_done.
  do 2 f_equal. rewrite take_replicate. f_equal. lia.
Qed.

(** However the calls on other generators are interleaved, the calls on
    the generator at [a] return what they return when it runs alone. *)
Lemma returned_to_alone schedule :
  forall (h : heap) a g,
    gens h !! a = Some g ->
    returned_to a (fst (next_each schedule h)) =
      resumes (length (filter (fun x => x = a) schedule)) g.
Proof.
  induction schedule as [|a' rest IH]; intros h a g Hg; [reflexivity|].
  cbn [next_each].
  destruct (next a' h) as [y h1] eqn:Hnext.
  destruct (next_each rest h1) as [ys h2] eqn:Hrest.
  cbn [fst]. unfold returned_to.
  destruct (decide (a' = a)) as [->|Hne].
  - rewrite (filter_cons_True (fun x => fst x = a)) by reflexivity.
    rewrite (filter_cons_True (fun x => x = a)) by reflexivity.
    cbn [map snd length resumes].
    rewrite (next_at h a g Hg) in Hnext. injection Hnext as <- <-.
    f_equal.
    specialize (IH {| gens := <[a := {| self := self g;
                                        at_ := snd (resume g) |}]> (gens h);
                      fresh := fresh h |} a
                   {| self := self g; at_ := snd (resume g) |}).
    rewrite Hrest in IH. apply IH. cbn [gens]. apply lookup_insert_eq.
  - rewrite (filter_cons_False (fun x => fst x = a)) by exact Hne.
    rewrite (filter_cons_False (fun x => x = a)) by exact Hne.
    specialize (IH h1 a g). rewrite Hrest in IH. apply IH.
    replace h1 with (snd (next a' h)) by (rewrite Hnext; reflexivity).
    rewrite next_other by exact Hne. exact Hg.
Qed.

(** X1: whatever calls of [next] on other generators (other iterations of
    the same Rectangle included) come in between, the calls on a new
    iteration of a Rectangle return the mapping with its length, then the
    mapping with its width, then StopIteration for every further call. *)
Theorem iteration_unaffected_by_others (r : t) (h : heap)
    (schedule : list nat) :
  returned_to (fst (__iter__ r h))
    (fst (next_each schedule (snd (__iter__ r h)))) =
  take (length (filter (fun x => x = fresh h) schedule))
    (Some {[ "length" := l r ]} :: Some {[ "width" := b r ]} ::
     replicate (length (filter (fun x => x = fresh h) schedule)) None).
Proof.
  unfold __iter__. cbn [fst snd].
  rewrite (returned_to_alone schedule _ (fresh h) {| self := r; at_ := AtStart |}).
  - apply resumes_new.
  - cbn [gens]. apply lookup_insert_eq.
Qed.

(** X2: a call of [next] on an exhausted generator returns StopIteration
    and changes nothing, however often it is repeated. *)
Theorem exhausted_stays_exhausted (h : heap) (a n : nat) (r : t) :
  gens h !! a = Some {| self := r; at_ := Done |} ->
  next_each (replicate n a) h = (replicate n (a, None), h).
Proof.
  intros Hr.
  assert (Hnext : next a h = (None, h)).
  { rewrite (next_at h a _ Hr). cbn [resume at_ self fst snd].
    rewrite insert_id by exact Hr. destruct h. reflexivity. }
  induction n as [|n IH]; [reflexivity|].
  cbn [replicate next_each]. rewrite Hnext, IH. reflexivity.
Qed.

Lemma exhausted_stays_exhausted_witness :
  next_each (replicate 4 0%nat)
    (snd (to_list {| l := PyInt 3; b := PyInt 4 |} empty_heap)) =
  (replicate 4 (0%nat, None),
   snd (to_list {| l := PyInt 3; b := PyInt 4 |} empty_heap)).
Proof.
  apply (exhausted_stays_exhausted
           (snd (to_list {| l := PyInt 3; b := PyInt 4 |} empty_heap)) 0 4
           {| l := PyInt 3; b := PyInt 4 |}).
  reflexivity.
Defined.

(** X3: a Rectangle that was constructed gives back, when iterated, the
    very two arguments it was constructed from, a boolean as the boolean it
    was: the first mapping has the one key ["length"] with the first
    argument, the second the one key ["width"] with the second. *)
Theorem construct_then_iterate (x y : pyval) (r : t) (h : heap) :
  __init__ x y = Ok r ->
  exists d1 d2 : gmap string pyval,
    fst (to_list r h) = [d1; d2] /\
    d1 !! "length" = Some x /\ d2 !! "width" = Some y /\
    dom d1 = {[ "length" ]} /\ dom d2 = {[ "width" ]} /\
    isinstance x Tint = true /\ isinstance y Tint = true.
Proof.
  unfold __init__. intros Hinit.
  destruct (isinstance x Tint) eqn:Hx, (isinstance y Tint) eqn:Hy;
    cbn in Hinit; try discriminate Hinit.
  injection Hinit as <-.
  exists {[ "length" := x ]}, {[ "width" := y ]}.
  split; [rewrite RectangleFacts.to_list_eq; reflexivity|].
  split; [apply lookup_singleton_eq|].
  split; [apply lookup_singleton_eq|].
  split; [apply dom_singleton_L|].
  split; [apply dom_singleton_L|].
  split; reflexivity.
Qed.

Lemma construct_then_iterate_witness :
  exists d1 d2 : gmap string pyval,
    fst (to_list {| l := PyBool true; b := PyInt (-7) |} empty_heap) = [d1; d2] /\
    d1 !! "length" = Some (PyBool true) /\ d2 !! "width" = Some (PyInt (-7)) /\
    dom d1 = {[ "length" ]} /\ dom d2 = {[ "width" ]} /\
    isinstance (PyBool true) Tint = true /\ isinstance (PyInt (-7)) Tint = true.
Proof.
  apply (construct_then_iterate (PyBool true) (PyInt (-7))
           {| l := PyBool true; b := PyInt (-7) |} empty_heap).
  reflexivity.
Defined.

(** X4: whether construction succeeds depends on the classes of the two
    arguments only, never on their values: zero and negative integers are
    accepted like any other integer, and no value of another class is. *)
Theorem init_depends_on_classes_only (x y x' y' : pyval) :
  type_of x = type_of x' -> type_of y = type_of y' ->
  (forall z z', __init__ (PyInt z) (PyInt z') = Ok {| l := PyInt z; b := PyInt z' |}) /\
  ((exists r, __init__ x y = Ok r) <-> (exists r', __init__ x' y' = Ok r')) /\
  (forall e, __init__ x y = Raise e <-> __init__ x' y' = Raise e).
Proof.
  intros Hx Hy. split; [reflexivity|].
  unfold __init__, isinstance. rewrite Hx, Hy.
  destruct (negb (issubclass (type_of x') Tint)
            || negb (issubclass (type_of y') Tint)).
  - split.
    + split; intros [? H]; discriminate H.
    + intros e. reflexivity.
  - split.
    + split; intros _; eexists; reflexivity.
    + intros e. split; intros H; discriminate H.
Qed.

Lemma init_depends_on_classes_only_witness :
  (exists r, __init__ (PyInt 0) (PyInt (-5)) = Ok r) <->
  (exists r', __init__ (PyInt 3) (PyInt 4) = Ok r').
Proof.
  apply (proj1 (proj2 (init_depends_on_classes_only
                         (PyInt 0) (PyInt (-5)) (PyInt 3) (PyInt 4)
                         eq_refl eq_refl))).
Defined.

End RectangleIteration.

(** ** The request handler: further properties *)

Lemma responses_differ : Ok success_response <> Ok failure_response.
Proof. intros H. discriminate H. Qed.

(** The body of the transactional scope when the name is taken: the insert
    raises and nothing is written. *)
Lemma scope_taken request w :
  username_taken (new_name w) (db w) = true ->
  create_user_scope request w =
    (Raise (IntegrityError "UNIQUE constraint failed: auth_user.username"),
     {| thread_name := thread_name w;
        db := db w;
        out := out w ++ [ Print "Starting user creation process..." ] |}).
Proof.
  intros Htaken. unfold new_name in Htaken.
  unfold create_user_scope, User_objects_create, bind, current_thread_name,
    print, emit, get_db, set_db, raise, ret.
  cbn [thread_name db out fst snd].
  rewrite Htaken. reflexivity.
Qed.

(** A request reads its state through the thread name and the database
    only. *)
Lemma create_user_frame request w1 w2 :
  thread_name w1 = thread_name w2 -> db w1 = db w2 ->
  fst (create_user request w1) = fst (create_user request w2) /\
  db (snd (create_user request w1)) = db (snd (create_user request w2)) /\
  events_of (create_user request) w1 = events_of (create_user request) w2.
Proof.
  intros Ht Hd.
  assert (Hname : new_name w1 = new_name w2) by (unfold new_name; congruence).
  assert (Hrow : new_row w1 = new_row w2) by (unfold new_row; congruence).
  destruct (username_taken (new_name w2) (db w2)) eqn:Htaken2.
  - assert (Htaken1 : username_taken (new_name w1) (db w1) = true) by congruence.
    rewrite (events_taken request w1 Htaken1), (events_taken request w2 Htaken2).
    rewrite (create_user_taken request w1 Htaken1),
            (create_user_taken request w2 Htaken2).
    cbn [fst snd db]. rewrite Ht. auto.
  - assert (Hfree1 : username_taken (new_name w1) (db w1) = false) by congruence.
    destruct (wants_failure request) eqn:Hfail.
    + rewrite (events_rolled_back request w1 Hfree1 Hfail),
              (events_rolled_back request w2 Htaken2 Hfail).
      rewrite (create_user_rolled_back request w1 Hfree1 Hfail),
              (create_user_rolled_back request w2 Htaken2 Hfail).
      cbn [fst snd db]. rewrite Ht, Hrow. auto.
    + rewrite (events_committed request w1 Hfree1 Hfail),
              (events_committed request w2 Htaken2 Hfail).
      rewrite (create_user_committed request w1 Hfree1 Hfail),
              (create_user_committed request w2 Htaken2 Hfail).
      cbn [fst snd db]. rewrite Ht, Hrow, Hd. auto.
Qed.

(** The name taken by a row is found; a name no row has is free. *)
Lemma username_taken_spec name d :
  username_taken name d = true <-> In name (map username (auth_user d)).
Proof.
  unfold username_taken. rewrite existsb_exists, in_map_iff.
  split; intros (u & H1 & H2); exists u.
  - apply String.eqb_eq in H2. auto.
  - split; [exact H2|]. apply String.eqb_eq. exact H1.
Qed.

(** Two thread names with the same derived user name are the same. *)
Lemma derived_name_inj t1 :
  forall t2, t1 +:+ "1" = t2 +:+ "1" -> t1 = t2.
Proof.
  induction t1 as [|c t1 IH]; intros [|c2 t2] H; cbn in H.
  - reflexivity.
  - injection H as _ H. destruct t2; discriminate H.
  - injection H as _ H. destruct t1; discriminate H.
  - injection H as -> H. f_equal. apply IH. exact H.
Qed.

(** X5: the handler never lets an exception escape: for every request and
    every state it returns a response with status 200 whose body is one of
    the two texts, it leaves the thread name alone, and it only adds to
    what was printed before. *)
Theorem create_user_never_raises (request : HttpRequest) (w : World) :
  exists body,
    fst (create_user request w) =
      Ok {| content := body; status_code := 200 |} /\
    (body = "User created successfully!" \/
     body = "Transaction failed, user was not created!") /\
    thread_name (snd (create_user request w)) = thread_name w /\
    out (snd (create_user request w)) =
      out w ++ events_of (create_user request) w.
Proof.
  destruct (username_taken (new_name w) (db w)) eqn:Htaken;
    [|destruct (wants_failure request) eqn:Hfail].
  - rewrite (events_taken request w Htaken).
    rewrite (create_user_taken request w Htaken). cbn [fst snd thread_name out].
    eexists. split; [reflexivity|]. split; [right; reflexivity|].
    split; reflexivity.
  - rewrite (events_rolled_back request w Htaken Hfail).
    rewrite (create_user_rolled_back request w Htaken Hfail).
    cbn [fst snd thread_name out].
    eexists. split; [reflexivity|]. split; [right; reflexivity|].
    split; reflexivity.
  - rewrite (events_committed request w Htaken Hfail).
    rewrite (create_user_committed request w Htaken Hfail).
    cbn [fst snd thread_name out].
    eexists. split; [reflexivity|]. split; [left; reflexivity|].
    split; reflexivity.
Qed.

(** X6: the response tells what happened to the database: the handler
    answers with the success text exactly when the transaction was
    committed, and then the table is the old one with the new row at its
    end; it answers with the failure text exactly when the transaction was
    rolled back, and then the database is the one it was before. *)
Theorem response_tells_outcome (request : HttpRequest) (w : World) :
  (fst (create_user request w) = Ok success_response <->
     In (Sql COMMIT) (events_of (create_user request) w)) /\
  (fst (create_user request w) = Ok success_response <->
     auth_user (db (snd (create_user request w))) =
       auth_user (db w) ++ [new_row w]) /\
  (fst (create_user request w) = Ok failure_response <->
     In (Sql ROLLBACK) (events_of (create_user request) w)) /\
  (fst (create_user request w) = Ok failure_response <->
     db (snd (create_user request w)) = db w).
Proof.
  assert (Hlen : forall (rows : list User) u, rows <> rows ++ [u]).
  { intros rows u H. apply (f_equal length) in H.
    rewrite length_app in H. cbn in H. lia. }
  destruct (username_taken (new_name w) (db w)) eqn:Htaken;
    [|destruct (wants_failure request) eqn:Hfail].
  - rewrite (events_taken request w Htaken).
    rewrite (create_user_taken request w Htaken). cbn [fst snd db In].
    repeat split; intros H; try reflexivity.
    + discriminate H.
    + repeat (destruct H as [H|H]; [discriminate H|]). destruct H.
    + discriminate H.
    + exfalso. exact (Hlen _ _ H).
    + do 3 right. left. reflexivity.
  - rewrite (events_rolled_back request w Htaken Hfail).
    rewrite (create_user_rolled_back request w Htaken Hfail).
    rewrite notifier_effects_eq. cbn [fst snd db In app].
    repeat split; intros H; try reflexivity.
    + discriminate H.
    + repeat (destruct H as [H|H]; [discriminate H|]). destruct H.
    + discriminate H.
    + exfalso. exact (Hlen _ _ H).
    + do 10 right. left. reflexivity.
  - rewrite (events_committed request w Htaken Hfail).
    rewrite (create_user_committed request w Htaken Hfail).
    rewrite notifier_effects_eq. cbn [fst snd db auth_user In app].
    repeat split; intros H; try reflexivity.
    + do 10 right. left. reflexivity.
    + discriminate H.
    + repeat (destruct H as [H|H]; [discriminate H|]). destruct H.
    + discriminate H.
    + exfalso. apply (f_equal auth_user) in H. cbn [auth_user] in H.
      symmetry in H. exact (Hlen _ _ H).
Qed.

(** X7: every request opens one transaction and closes it once: after the
    first log line comes the one [BEGIN], later the one [COMMIT] or
    [ROLLBACK]; what lies between them opens or closes no transaction, and
    what comes after the decision is printing only.  So every insert and
    every delay of a request happens while its transaction is open. *)
Theorem one_transaction_per_request (request : HttpRequest) (w : World) :
  exists inside decision after,
    events_of (create_user request) w =
      Print ("View running in thread: " +:+ thread_name w) ::
      Sql BEGIN :: inside ++ Sql decision :: after /\
    is_decision (Sql decision) /\
    (forall ev, In ev inside -> ev <> Sql BEGIN /\ ~ is_decision ev) /\
    (forall ev, In ev after -> exists line, ev = Print line).
Proof.
  destruct (username_taken (new_name w) (db w)) eqn:Htaken;
    [|destruct (wants_failure request) eqn:Hfail].
  - rewrite (events_taken request w Htaken).
    exists [ Print "Starting user creation process..." ], ROLLBACK,
      [ Print "Exception occurred: UNIQUE constraint failed: auth_user.username" ].
    split; [reflexivity|]. split; [right; reflexivity|]. split.
    + intros ev [<-|[]]. split; [discriminate|].
      intros [H|H]; discriminate H.
    + intros ev [<-|[]]. eexists. reflexivity.
  - rewrite (events_rolled_back request w Htaken Hfail).
    rewrite notifier_effects_eq. cbn [app].
    eexists (_ :: _ :: _ :: _ :: _ :: _ :: _ :: [_]), ROLLBACK, [_].
    split; [reflexivity|]. split; [right; reflexivity|]. split.
    + intros ev Hin. cbn [In] in Hin.
      repeat (destruct Hin as [<-|Hin];
              [split; [discriminate|intros [H|H]; discriminate H]|]).
      destruct Hin.
    + intros ev [<-|[]]. eexists. reflexivity.
  - rewrite (events_committed request w Htaken Hfail).
    rewrite notifier_effects_eq. cbn [app].
    eexists (_ :: _ :: _ :: _ :: _ :: _ :: _ :: [_]), COMMIT, [].
    split; [reflexivity|]. split; [left; reflexivity|]. split.
    + intros ev Hin. cbn [In] in Hin.
      repeat (destruct Hin as [<-|Hin];
              [split; [discriminate|intros [H|H]; discriminate H]|]).
      destruct Hin.
    + intros ev [].
Qed.

(** X8: a request blocks for 5 seconds when its row is inserted, whether the
    transaction is then committed or rolled back, and not at all when the
    name is taken and the insert raises. *)
Theorem request_blocking_time (request : HttpRequest) (w : World) :
  time_slept (events_of (create_user request) w) =
    if username_taken (thread_name w +:+ "1") (db w) then 0 else 5.
Proof.
  change (thread_name w +:+ "1") with (new_name w).
  destruct (username_taken (new_name w) (db w)) eqn:Htaken;
    [|destruct (wants_failure request) eqn:Hfail].
  - rewrite (events_taken request w Htaken). reflexivity.
  - rewrite (events_rolled_back request w Htaken Hfail). reflexivity.
  - rewrite (events_committed request w Htaken Hfail). reflexivity.
Qed.

(** X9: when an exception leaves the body of the transactional scope, the
    handler answers with the failure text and the last thing the request
    does is to print ["Exception occurred: "] followed by the message of
    that exception; when the body returns, the handler answers with the
    success text and prints no such line. *)
Theorem exception_is_logged (request : HttpRequest) (w : World) :
  (forall e,
     fst (create_user_scope request w) = Raise e ->
     fst (create_user request w) = Ok failure_response /\
     last (events_of (create_user request) w) =
       Some (Print ("Exception occurred: " +:+ str e))) /\
  (fst (create_user_scope request w) = Ok tt ->
     fst (create_user request w) = Ok success_response /\
     forall rest,
       ~ In (Print ("Exception occurred: " +:+ rest))
            (events_of (create_user request) w)).
Proof.
  destruct (username_taken (new_name w) (db w)) eqn:Htaken;
    [|destruct (wants_failure request) eqn:Hfail].
  - rewrite (scope_taken request w Htaken).
    rewrite (events_taken request w Htaken).
    rewrite (create_user_taken request w Htaken). cbn [fst].
    split.
    + intros e He. injection He as <-. split; reflexivity.
    + intros H. discriminate H.
  - rewrite (scope_free request w Htaken). rewrite Hfail.
    rewrite (events_rolled_back request w Htaken Hfail).
    rewrite (create_user_rolled_back request w Htaken Hfail). cbn [fst].
    split.
    + intros e He. injection He as <-. split; reflexivity.
    + intros H. discriminate H.
  - rewrite (scope_free request w Htaken). rewrite Hfail.
    rewrite (events_committed request w Htaken Hfail).
    rewrite (create_user_committed request w Htaken Hfail). cbn [fst].
    split.
    + intros e He. discriminate He.
    + intros _. split; [reflexivity|].
      intros rest H. rewrite notifier_effects_eq in H. cbn [app In] in H.
      repeat (destruct H as [H|H]; [discriminate H|]). exact H.
Qed.

Lemma exception_is_logged_witness :
  fst (create_user failing_request (start "MainThread")) = Ok failure_response /\
  last (events_of (create_user failing_request) (start "MainThread")) =
    Some (Print ("Exception occurred: " +:+
                 str (Exception "Simulating an error to roll back the transaction"))).
Proof.
  apply (proj1 (exception_is_logged failing_request (start "MainThread"))).
  reflexivity.
Defined.

(** A request that answered with the success text found the name free and
    was not asked to fail. *)
Lemma success_inv request w :
  fst (create_user request w) = Ok success_response ->
  username_taken (new_name w) (db w) = false /\ wants_failure request = false.
Proof.
  intros H.
  destruct (username_taken (new_name w) (db w)) eqn:Htaken;
    [|destruct (wants_failure request) eqn:Hfail].
  - rewrite (create_user_taken request w Htaken) in H. cbn [fst] in H.
    exfalso. apply responses_differ. symmetry. exact H.
  - rewrite (create_user_rolled_back request w Htaken Hfail) in H.
    cbn [fst] in H. exfalso. apply responses_differ. symmetry. exact H.
  - split; reflexivity.
Qed.

(** After a commit the name is taken. *)
Lemma taken_after_commit request w :
  username_taken (new_name w) (db w) = false ->
  wants_failure request = false ->
  username_taken (new_name (snd (create_user request w)))
    (db (snd (create_user request w))) = true.
Proof.
  intros Hfree Hfail.
  rewrite (create_user_committed request w Hfree Hfail).
  unfold new_name at 1. cbn [snd thread_name db].
  apply username_taken_spec. cbn [auth_user].
  rewrite map_app. apply in_or_app. right. left. reflexivity.
Qed.

(** X10: one thread name creates at most one User: once a request has
    answered with the success text, every later request served in the
    state it left, under the same thread name and whatever its parameters,
    answers with the failure text, inserts nothing and leaves the database
    as it found it. *)
Theorem same_thread_cannot_create_twice (first second : HttpRequest)
    (w : World) :
  fst (create_user first w) = Ok success_response ->
  fst (create_user second (snd (create_user first w))) = Ok failure_response /\
  db (snd (create_user second (snd (create_user first w)))) =
    db (snd (create_user first w)) /\
  forall row,
    ~ In (Sql (INSERT row))
         (events_of (create_user second) (snd (create_user first w))).
Proof.
  intros Hok. apply success_inv in Hok as [Hfree Hfail].
  pose proof (taken_after_commit first w Hfree Hfail) as Htaken.
  rewrite (events_taken second _ Htaken).
  rewrite (create_user_taken second _ Htaken). cbn [fst snd db].
  split; [reflexivity|]. split; [reflexivity|].
  intros row H. cbn [In] in H.
  repeat (destruct H as [H|H]; [discriminate H|]). exact H.
Qed.

Lemma same_thread_cannot_create_twice_witness :
  fst (create_user failing_request
         (snd (create_user plain_request (start "MainThread")))) =
    Ok failure_response.
Proof.
  apply (proj1 (same_thread_cannot_create_twice plain_request failing_request
                  (start "MainThread") eq_refl)).
Defined.

(** X11: a request that asked for the failure leaves nothing behind but
    its log: whatever request is served next under the same thread name
    gets the response, leaves the database and produces the events it would
    have if the failing request had never been served. *)
Theorem rolled_back_request_is_invisible (failing next : HttpRequest)
    (w : World) :
  QueryDict_get "fail" "no" (GET failing) = "yes" ->
  fst (create_user next (snd (create_user failing w))) =
    fst (create_user next w) /\
  db (snd (create_user next (snd (create_user failing w)))) =
    db (snd (create_user next w)) /\
  events_of (create_user next) (snd (create_user failing w)) =
    events_of (create_user next) w.
Proof.
  intros Hfail. apply wants_failure_true in Hfail.
  apply create_user_frame.
  - destruct (username_taken (new_name w) (db w)) eqn:Htaken.
    + rewrite (create_user_taken failing w Htaken). reflexivity.
    + rewrite (create_user_rolled_back failing w Htaken Hfail). reflexivity.
  - destruct (username_taken (new_name w) (db w)) eqn:Htaken.
    + rewrite (create_user_taken failing w Htaken). reflexivity.
    + rewrite (create_user_rolled_back failing w Htaken Hfail). reflexivity.
Qed.

Lemma rolled_back_request_is_invisible_witness :
  fst (create_user plain_request
         (snd (create_user failing_request (start "MainThread")))) =
    fst (create_user plain_request (start "MainThread")).
Proof.
  apply (proj1 (rolled_back_request_is_invisible failing_request plain_request
                  (start "MainThread") eq_refl)).
Defined.

(** X12: a request changes the availability of no name but its own: the
    user name derived from any other thread name is taken after the request
    exactly when it was taken before. *)
Theorem other_thread_names_unaffected (request : HttpRequest) (w : World)
    (t : string) :
  t <> thread_name w ->
  username_taken (t +:+ "1") (db (snd (create_user request w))) =
    username_taken (t +:+ "1") (db w).
Proof.
  intros Hne.
  destruct (username_taken (new_name w) (db w)) eqn:Htaken;
    [|destruct (wants_failure request) eqn:Hfail].
  - rewrite (create_user_taken request w Htaken). reflexivity.
  - rewrite (create_user_rolled_back request w Htaken Hfail). reflexivity.
  - rewrite (create_user_committed request w Htaken Hfail).
    cbn [snd db]. unfold username_taken. cbn [auth_user].
    rewrite existsb_app. cbn [existsb new_row username].
    replace (String.eqb (new_name w) (t +:+ "1")) with false.
    + rewrite !orb_false_r. reflexivity.
    + symmetry. apply String.eqb_neq. unfold new_name. intros H.
      apply Hne. symmetry. apply derived_name_inj. exact H.
Qed.

Lemma other_thread_names_unaffected_witness :
  username_taken ("Thread-2" +:+ "1")
    (db (snd (create_user plain_request (start "MainThread")))) =
  username_taken ("Thread-2" +:+ "1") (db (start "MainThread")).
Proof.
  apply (other_thread_names_unaffected plain_request (start "MainThread")
           "Thread-2").
  cbn. discriminate.
Defined.



(** X14: of a request only whether its parameter [fail] is ["yes"] matters:
    two requests that agree on that are handled alike in every state, and a
    request without the parameter is handled like one with an empty query
    string. *)
Theorem only_fail_yes_matters (r1 r2 : HttpRequest) (w : World) :
  ((QueryDict_get "fail" "no" (GET r1) = "yes" <->
    QueryDict_get "fail" "no" (GET r2) = "yes") ->
   create_user r1 w = create_user r2 w) /\
  (GET r1 !! "fail" = None ->
   create_user r1 w = create_user plain_request w).
Proof.
  assert (Hsame : forall a c,
            wants_failure a = wants_failure c ->
            create_user a w = create_user c w).
  { intros a c Heq.
    destruct (username_taken (new_name w) (db w)) eqn:Htaken.
    - rewrite (create_user_taken a w Htaken), (create_user_taken c w Htaken).
      reflexivity.
    - destruct (wants_failure c) eqn:Hc.
      + rewrite (create_user_rolled_back a w Htaken Heq),
                (create_user_rolled_back c w Htaken Hc). reflexivity.
      + rewrite (create_user_committed a w Htaken Heq),
                (create_user_committed c w Htaken Hc). reflexivity. }
  split.
  - intros Hiff. apply Hsame.
    destruct (wants_failure r1) eqn:H1, (wants_failure r2) eqn:H2;
      try reflexivity.
    + apply wants_failure_true in H1. apply Hiff in H1.
      apply wants_failure_true in H1. congruence.
    + apply wants_failure_true in H2. apply Hiff in H2.
      apply wants_failure_true in H2. congruence.
  - intros Hnone. apply Hsame.
    unfold wants_failure, QueryDict_get. rewrite Hnone. reflexivity.
Qed.

Lemma only_fail_yes_matters_witness :
  create_user {| GET := {[ "name" := ["x"] ]} |} (start "MainThread") =
  create_user plain_request (start "MainThread").
Proof.
  apply (proj2 (only_fail_yes_matters {| GET := {[ "name" := ["x"] ]} |}
                  plain_request (start "MainThread"))).
  reflexivity.
Defined.
